(** * ARWN sensor platform: topic classification, sensor cache and routing

    A shallow embedding of [homeassistant/components/arwn/sensor.py]:
    the classifier [discover_sensors], the entity class [ArwnSensor] with
    [set_event] and its reading [state], the platform callback
    [async_sensor_event_received] that fills the cache [hass.data["arwn"]],
    and the per-entity callback [message_received].

    Python exceptions are results ([Raise]); the callbacks run in a state and
    error monad over the part of [hass] they touch. *)

From Stdlib Require Import ZArith String Ascii List.
From Stdlib Require Import Floats.SpecFloat.
From stdpp Require Import gmap strings list fin_maps relations.

Set Warnings "-register-all".
Local Open Scope string_scope.

(** ** Python values *)

(** What [json.loads] builds: [None], [bool], [int], [float], [str], [list]
    and [dict] with string keys. A float is kept as its IEEE 754 binary64
    datum. *)
Inductive json : Type :=
  | JNull
  | JBool (b : bool)
  | JInt (z : Z)
  | JFloat (f : spec_float)
  | JStr (s : string)
  | JArr (l : list json)
  | JObj (m : gmap string json).

(** [v == s] for a decoded value [v] and a [str] literal [s]. *)
Definition py_eq_str (v : json) (s : string) : bool :=
  match v with
  | JStr s' => bool_decide (s' = s)
  | _ => false
  end.

(** The exceptions the modelled code can raise. *)
Inductive exn : Set :=
  | IndexError
  | JSONDecodeError.

Inductive Result (A : Type) : Type :=
  | Return (a : A)
  | Raise (e : exn).
Arguments Return {A} a.
Arguments Raise {A} e.

#[global] Instance Result_ret : MRet Result := @Return.
#[global] Instance Result_bind : MBind Result := fun A B f m =>
  match m with
  | Return a => f a
  | Raise e => Raise e
  end.

(** [s.split(sep)] for a one-character separator: never empty, and an empty
    piece at each end where the separator is first or last. *)
Fixpoint split (sep : ascii) (s : string) : list string :=
  match s with
  | EmptyString => [EmptyString]
  | String c s' =>
      if Ascii.eqb c sep then EmptyString :: split sep s'
      else match split sep s' with
           | piece :: pieces => String c piece :: pieces
           | [] => [String c EmptyString]
           end
  end.

(** [parts[i]] for [i >= 0]. *)
Definition getitem {A} (parts : list A) (i : nat) : Result A :=
  match parts !! i with
  | Some x => Return x
  | None => Raise IndexError
  end.

(** ** Names imported from the host package *)

(** [TEMP_FAHRENHEIT], [TEMP_CELSIUS] and [DEGREE] of [homeassistant.const]:
    fixed strings whose text is not part of this file. *)
Class Const : Set := {
  TEMP_FAHRENHEIT : string;
  TEMP_CELSIUS : string;
  DEGREE : string
}.

(** Modelled from the spec: the three definitions below are the parts of
    [slugify], which follows them. An alphanumeric character is an ASCII
    letter or digit. *)
Definition is_alnum (c : ascii) : bool :=
  let n := nat_of_ascii c in
  (((48 <=? n) && (n <=? 57)) || ((65 <=? n) && (n <=? 90))
   || ((97 <=? n) && (n <=? 122)))%nat.

(** Modelled from the spec: lower-casing, of the ASCII capitals. *)
Definition lower (c : ascii) : ascii :=
  let n := nat_of_ascii c in
  if ((65 <=? n) && (n <=? 90))%nat then ascii_of_nat (n + 32) else c.

(** Modelled from the spec: one separator for each run of characters that
    are not alphanumeric; [in_run] says that the run has its separator. *)
Fixpoint slugify_from (in_run : bool) (s : string) : string :=
  match s with
  | EmptyString => EmptyString
  | String c s' =>
      if is_alnum c then String (lower c) (slugify_from false s')
      else if in_run then slugify_from true s'
      else String "_" (slugify_from true s')
  end.

(** Modelled from the spec: [homeassistant.util.slugify] is not among the
    sources. The spec (External interfaces, Identifiers): slugification
    lower-cases and replaces non-alphanumeric runs with single separators.
    The separator is the underscore that also joins prefix and slug. *)
Definition slugify (text : string) : string := slugify_from false text.

(** ** The entity class *)

Definition _slug (name : string) : string := "sensor.arwn_" ++ slugify name.

(** An [ArwnSensor] object. [hass] is [false] for [None] and [true] once the
    platform has stored the host handle; [_unit_of_measurement] is whatever
    value the classifier passed, [_icon = None] is the default argument. *)
Record ArwnSensor : Type := mkArwnSensor {
  hass : bool;
  entity_id : string;
  _name : string;
  _state_key : string;
  event : gmap string json;
  _unit_of_measurement : json;
  _icon : option string;
  _topic : string
}.

(** [ArwnSensor.__init__] *)
Definition ArwnSensor_init (name state_key : string) (units : json)
    (topic : string) (icon : option string) : ArwnSensor :=
  {| hass := false;
     entity_id := _slug name;
     _name := name;
     _state_key := state_key;
     event := ∅;
     _unit_of_measurement := units;
     _icon := icon;
     _topic := topic |}.

Definition with_hass (self : ArwnSensor) (h : bool) : ArwnSensor :=
  {| hass := h; entity_id := entity_id self; _name := _name self;
     _state_key := _state_key self; event := event self;
     _unit_of_measurement := _unit_of_measurement self;
     _icon := _icon self; _topic := _topic self |}.

Definition with_event (self : ArwnSensor) (e : gmap string json) : ArwnSensor :=
  {| hass := hass self; entity_id := entity_id self; _name := _name self;
     _state_key := _state_key self; event := e;
     _unit_of_measurement := _unit_of_measurement self;
     _icon := _icon self; _topic := _topic self |}.

(** The properties [name], [state], [state_attributes], [unit_of_measurement]
    and [icon]. [state] is [self.event.get(self._state_key, None)]. *)
Definition name (self : ArwnSensor) : string := _name self.
Definition state (self : ArwnSensor) : json :=
  default JNull (event self !! _state_key self).
Definition state_attributes (self : ArwnSensor) : gmap string json := event self.
Definition unit_of_measurement (self : ArwnSensor) : json :=
  _unit_of_measurement self.
Definition icon (self : ArwnSensor) : option string := _icon self.

(** ** The classifier *)

(** What [discover_sensors] returns: [None] (falling off the end), one
    sensor, or a tuple of sensors. *)
Inductive Discovery : Type :=
  | NoSensor
  | OneSensor (sensor : ArwnSensor)
  | SensorTuple (sensors : list ArwnSensor).

Definition discover_sensors `{Const} (topic : string) (payload : gmap string json)
    : Result Discovery :=
  let parts := split "/" topic in
  let unit := default (JStr "") (payload !! "units") in
  domain ← getitem parts 1;
  if bool_decide (domain = "temperature") then
    name ← getitem parts 2;
    let unit :=
      if py_eq_str unit "F" then JStr TEMP_FAHRENHEIT else JStr TEMP_CELSIUS in
    mret (OneSensor (ArwnSensor_init name "temp" unit topic None))
  else if bool_decide (domain = "moisture") then
    part ← getitem parts 2;
    let name := part ++ " Moisture" in
    mret (OneSensor
            (ArwnSensor_init name "moisture" unit topic (Some "mdi:water-percent")))
  else if bool_decide (domain = "rain") then
    if bool_decide (3 ≤ List.length parts)%nat && bool_decide (parts !! 2 = Some "today")
    then
      mret (OneSensor
              (ArwnSensor_init "Rain Since Midnight" "since_midnight" (JStr "in")
                 topic (Some "mdi:water")))
    else
      mret (SensorTuple
              [ ArwnSensor_init "Total Rainfall" "total" unit topic (Some "mdi:water");
                ArwnSensor_init "Rainfall Rate" "rate" unit topic (Some "mdi:water") ])
  else if bool_decide (domain = "barometer") then
    mret (OneSensor
            (ArwnSensor_init "Barometer" "pressure" unit topic
               (Some "mdi:thermometer-lines")))
  else if bool_decide (domain = "wind") then
    mret (SensorTuple
            [ ArwnSensor_init "Wind Speed" "speed" unit topic (Some "mdi:speedometer");
              ArwnSensor_init "Wind Gust" "gust" unit topic (Some "mdi:speedometer");
              ArwnSensor_init "Wind Direction" "direction" (JStr DEGREE) topic
                (Some "mdi:compass") ])
  else mret NoSensor.

(** [if not sensors: return] and [if isinstance(sensors, ArwnSensor):
    sensors = (sensors,)] of the platform callback: the sequence the loop
    walks. [None] is falsy, an entity and a non-empty tuple are truthy. *)
Definition truthy (sensors : Discovery) : bool :=
  match sensors with
  | NoSensor => false
  | OneSensor _ => true
  | SensorTuple l => negb (bool_decide (l = []))
  end.

Definition as_tuple (sensors : Discovery) : list ArwnSensor :=
  match sensors with
  | NoSensor => []
  | OneSensor s => [s]
  | SensorTuple l => l
  end.

(** ** The host, as far as the callbacks touch it *)

(** [data] is [hass.data.get("arwn")]: [None] until the platform callback
    makes the dictionary, then the cache from sensor name to sensor object.
    The other three fields record the calls that leave the module, oldest
    first: [async_add_entities] (the entity handed over, by the name it is
    cached under), [async_write_ha_state] (entity id and attributes written)
    and [_LOGGER.debug] (name and event of the record). *)
Record HomeAssistant : Type := mkHomeAssistant {
  data : option (gmap string ArwnSensor);
  added : list string;
  written : list (string * gmap string json);
  log : list (string * gmap string json)
}.

(** A host that has not yet seen a message. *)
Definition fresh_hass : HomeAssistant :=
  {| data := None; added := []; written := []; log := [] |}.

(** The cache as the host application reads it. *)
Definition registry (h : HomeAssistant) : gmap string ArwnSensor :=
  default ∅ (data h).

(** An MQTT message. The callbacks use [msg.payload] only as the argument of
    [json.loads], so the message carries what that call makes of it: the
    decoded object, or [None] for bytes that are not JSON. Documents that
    decode to something other than an object are left out of this
    development. *)
Record Message : Type := mkMessage {
  topic : string;
  payload : option (gmap string json)
}.

(** Computations of the callbacks: they read and write the host and may
    raise; the host is kept as it was when the exception left. *)
Definition M (A : Type) : Type := HomeAssistant → Result A * HomeAssistant.

#[global] Instance M_ret : MRet M := fun A a h => (Return a, h).
#[global] Instance M_bind : MBind M := fun A B f m h =>
  match m h with
  | (Return a, h') => f a h'
  | (Raise e, h') => (Raise e, h')
  end.

Definition lift {A} (r : Result A) : M A := fun h => (r, h).
Definition gets {A} (f : HomeAssistant → A) : M A := fun h => (Return (f h), h).
Definition modify (f : HomeAssistant → HomeAssistant) : M unit :=
  fun h => (Return tt, f h).

Definition set_data (d : option (gmap string ArwnSensor)) (h : HomeAssistant)
    : HomeAssistant :=
  {| data := d; added := added h; written := written h; log := log h |}.

(** [store[key] = sensor] on the dictionary held in [hass.data]. *)
Definition store_setitem (key : string) (sensor : ArwnSensor) : M unit :=
  modify (fun h => set_data (Some (<[key := sensor]> (registry h))) h).

Definition async_add_entities (sensors : list ArwnSensor) : M unit :=
  modify (fun h =>
    {| data := data h; added := added h ++ (name <$> sensors);
       written := written h; log := log h |}).

Definition async_write_ha_state (self : ArwnSensor) : M unit :=
  modify (fun h =>
    {| data := data h; added := added h;
       written := written h ++ [(entity_id self, event self)]; log := log h |}).

Definition logger_debug (name : string) (ev : gmap string json) : M unit :=
  modify (fun h =>
    {| data := data h; added := added h; written := written h;
       log := log h ++ [(name, ev)] |}).

(** [json.loads(msg.payload)] *)
Definition json_loads (msg : Message) : M (gmap string json) :=
  match payload msg with
  | Some ev => mret ev
  | None => lift (Raise JSONDecodeError)
  end.

(** [if "timestamp" in event: del event["timestamp"]] *)
Definition drop_timestamp (ev : gmap string json) : gmap string json :=
  match ev !! "timestamp" with
  | Some _ => delete "timestamp" ev
  | None => ev
  end.

(** [ArwnSensor.set_event]: a new empty dictionary, [dict.update] (the keys
    of the argument win), then the state write. The updated object is the
    result. *)
Definition set_event (self : ArwnSensor) (ev : gmap string json) : M ArwnSensor :=
  let self := with_event self ∅ in
  let self := with_event self (ev ∪ event self) in
  async_write_ha_state self;;
  mret self.

Fixpoint for_each {A} (l : list A) (body : A → M unit) : M unit :=
  match l with
  | [] => mret tt
  | x :: l' => body x;; for_each l' body
  end.

(** The body of [for sensor in sensors] in the platform callback, for the
    event [ev] from which [timestamp] is already gone: a sensor whose name
    is not a key of the cache gets the host handle and the event, is cached
    under its name, logged and handed to the host; for a name that is
    already a key nothing is done. *)
Definition register_if_new (ev : gmap string json) (sensor : ArwnSensor) : M unit :=
  store ← gets registry;
  match store !! name sensor with
  | None =>
      let sensor := with_hass sensor true in
      sensor ← set_event sensor ev;
      store_setitem (name sensor) sensor;;
      logger_debug (name sensor) ev;;
      async_add_entities [sensor]
  | Some _ => mret tt
  end.

(** The platform callback subscribed to [arwn/#]. *)
Definition async_sensor_event_received `{Const} (msg : Message) : M unit :=
  ev ← json_loads msg;
  sensors ← lift (discover_sensors (topic msg) ev);
  if negb (truthy sensors) then mret tt
  else
    store ← gets data;
    match store with
    | None => modify (set_data (Some ∅))
    | Some _ => mret tt
    end;;
    let sensors := as_tuple sensors in
    let ev := drop_timestamp ev in
    for_each sensors (register_if_new ev).

(** The callback [message_received] that [async_added_to_hass] subscribes to
    the entity's own topic, with [self] the entity it closes over. *)
Definition message_received (self : ArwnSensor) (msg : Message) : M ArwnSensor :=
  ev ← json_loads msg;
  let ev := drop_timestamp ev in
  set_event self ev.

(** [message_received] of the entity cached under [key]. The entity the host
    holds and the cached one are the same object, so the update shows in the
    cache. Only entities handed to the host have the callback, and those are
    cached; under any other key there is nothing to run. *)
Definition entity_message_received (key : string) (msg : Message) : M unit :=
  store ← gets registry;
  match store !! key with
  | Some self =>
      self ← message_received self msg;
      store_setitem key self
  | None => mret tt
  end.

(** One callback invocation by the transport: the platform callback on any
    message, or the callback of an entity that was handed to the host. An
    exception ends the invocation and leaves the host as the callback left
    it. *)
Inductive delivery `{Const} : HomeAssistant → HomeAssistant → Prop :=
  | to_platform msg h :
      delivery h (async_sensor_event_received msg h).2
  | to_entity key msg h :
      key ∈ added h →
      delivery h (entity_message_received key msg h).2.

(** The descriptor part of a sensor: all but the attributes. *)
Definition same_sensor (s1 s2 : ArwnSensor) : Prop :=
  entity_id s1 = entity_id s2 ∧ _name s1 = _name s2 ∧
  _state_key s1 = _state_key s2 ∧
  _unit_of_measurement s1 = _unit_of_measurement s2 ∧
  _icon s1 = _icon s2 ∧ _topic s1 = _topic s2.

(** The cache is keyed by display name: a cached sensor sits under its own
    name, with the entity id made from that name and the host handle set;
    and the names handed to the host are the keys of the cache, each handed
    over once. *)
Definition well_keyed (h : HomeAssistant) : Prop :=
  (∀ key s, registry h !! key = Some s →
     name s = key ∧ entity_id s = _slug key ∧ hass s = true) ∧
  NoDup (added h) ∧
  (∀ key, key ∈ added h ↔ is_Some (registry h !! key)).

(** ** Data for closed examples *)

(** One choice of the three labels. *)
Definition labels : Const :=
  {| TEMP_FAHRENHEIT := "°F"; TEMP_CELSIUS := "°C"; DEGREE := "°" |}.

(** The reading 72.5 as a binary64 datum. *)
Definition float_72_5 : spec_float := S754_finite false 5101733952880640 (-46).

(** Topic [arwn/temperature/backyard] with the object
    [{units: "F", temp: 72.5}]. *)
Definition backyard_message : Message :=
  {| topic := "arwn/temperature/backyard";
     payload := Some (<["temp" := JFloat float_72_5]> {["units" := JStr "F"]}) |}.

(** The same topic with bytes that [json.loads] rejects. *)
Definition garbled_message : Message :=
  {| topic := "arwn/temperature/backyard"; payload := None |}.

(** A later reading on the same topic, with a [timestamp]. *)
Definition backyard_update : Message :=
  {| topic := "arwn/temperature/backyard";
     payload := Some (<["timestamp" := JInt 1600000000]>
                          (<["temp" := JInt 70]> {["units" := JStr "F"]})) |}.

(** Two temperature topics whose name segments differ only in case. *)
Definition upper_message : Message :=
  {| topic := "arwn/temperature/A"; payload := Some ∅ |}.
Definition lower_message : Message :=
  {| topic := "arwn/temperature/a"; payload := Some ∅ |}.

(** Topic [arwn/wind] with the object
    [{units: "mph", speed: 5, gust: 9, direction: 180}]. *)
Definition wind_message : Message :=
  {| topic := "arwn/wind";
     payload := Some (<["direction" := JInt 180]>
                        (<["gust" := JInt 9]>
                           (<["speed" := JInt 5]> {["units" := JStr "mph"]}))) |}.

(** The host after the first backyard message, then after the entity's own
    callback got the later reading. *)
Definition backyard_hass : HomeAssistant :=
  (@async_sensor_event_received labels backyard_message fresh_hass).2.
Definition backyard_hass_updated : HomeAssistant :=
  (entity_message_received "backyard" backyard_update backyard_hass).2.

(** The host after the two messages that differ in case. *)
Definition two_cases_hass : HomeAssistant :=
  (@async_sensor_event_received labels lower_message
     (@async_sensor_event_received labels upper_message fresh_hass).2).2.

(** * Classification *)

Example split_three : split "/" "arwn/rain/today" = ["arwn"; "rain"; "today"].
Proof. reflexivity. Qed.

Example split_empty_pieces : split "/" "a//b/" = ["a"; ""; "b"; ""].
Proof. reflexivity. Qed.

Example split_no_separator : split "/" "arwn" = ["arwn"].
Proof. reflexivity. Qed.

Example slugify_name : slugify "Rain Since Midnight" = "rain_since_midnight".
Proof. reflexivity. Qed.

Example slug_folds_case : _slug "A" = _slug "a".
Proof. reflexivity. Qed.

Example unknown_domain :
  @discover_sensors labels "arwn/unknown/foo" ∅ = Return NoSensor.
Proof. reflexivity. Qed.

Section Classifier.
Context `{Const}.

Lemma split_length sep s : (1 ≤ List.length (split sep s))%nat.
Proof.
  induction s as [|c s IH]; simpl; [lia|].
  destruct (Ascii.eqb c sep); simpl; [lia|].
  destruct (split sep s); simpl in *; lia.
Qed.

Lemma getitem_Return {A} (l : list A) i x :
  l !! i = Some x → getitem l i = Return x.
Proof. unfold getitem. by intros ->. Qed.

Lemma getitem_Raise {A} (l : list A) i :
  l !! i = None → getitem l i = Raise IndexError.
Proof. unfold getitem. by intros ->. Qed.

(** The classifier once the domain segment is known. *)
Lemma discover_sensors_domain topic payload domain :
  split "/" topic !! 1%nat = Some domain →
  discover_sensors topic payload =
    let parts := split "/" topic in
    let unit := default (JStr "") (payload !! "units") in
    if bool_decide (domain = "temperature") then
      name ← getitem parts 2;
      mret (OneSensor (ArwnSensor_init name "temp"
              (if py_eq_str unit "F" then JStr TEMP_FAHRENHEIT
               else JStr TEMP_CELSIUS) topic None))
    else if bool_decide (domain = "moisture") then
      part ← getitem parts 2;
      mret (OneSensor (ArwnSensor_init (part ++ " Moisture") "moisture" unit
              topic (Some "mdi:water-percent")))
    else if bool_decide (domain = "rain") then
      if bool_decide (3 ≤ List.length parts)%nat
         && bool_decide (parts !! 2%nat = Some "today")
      then mret (OneSensor (ArwnSensor_init "Rain Since Midnight"
                   "since_midnight" (JStr "in") topic (Some "mdi:water")))
      else mret (SensorTuple
             [ ArwnSensor_init "Total Rainfall" "total" unit topic
                 (Some "mdi:water");
               ArwnSensor_init "Rainfall Rate" "rate" unit topic
                 (Some "mdi:water") ])
    else if bool_decide (domain = "barometer") then
      mret (OneSensor (ArwnSensor_init "Barometer" "pressure" unit topic
              (Some "mdi:thermometer-lines")))
    else if bool_decide (domain = "wind") then
      mret (SensorTuple
             [ ArwnSensor_init "Wind Speed" "speed" unit topic
                 (Some "mdi:speedometer");
               ArwnSensor_init "Wind Gust" "gust" unit topic
                 (Some "mdi:speedometer");
               ArwnSensor_init "Wind Direction" "direction" (JStr DEGREE)
                 topic (Some "mdi:compass") ])
    else mret NoSensor.
Proof.
  intros Hd. unfold discover_sensors.
  by rewrite (getitem_Return _ _ _ Hd).
Qed.

Lemma discover_sensors_short topic payload :
  split "/" topic !! 1%nat = None →
  discover_sensors topic payload = Raise IndexError.
Proof.
  intros Hd. unfold discover_sensors.
  by rewrite (getitem_Raise _ _ Hd).
Qed.

Lemma py_eq_str_true v s : py_eq_str v s = true ↔ v = JStr s.
Proof.
  destruct v; simpl; try (split; [discriminate|by intros [=]]).
  rewrite bool_decide_eq_true. split; [by intros ->|by intros [= ->]].
Qed.

End Classifier.

(** C4. A topic whose domain segment is [temperature] and that has a name
    segment is classified as exactly one sensor, named by that segment, with
    state key [temp]; its unit is the Fahrenheit label when the payload's
    [units] is the string [F], and the Celsius label for every other value
    of [units] and when [units] is absent. *)
Theorem temperature_unit `{Const} (topic : string) (payload : gmap string json)
    (segment : string) :
  split "/" topic !! 1%nat = Some "temperature" →
  split "/" topic !! 2%nat = Some segment →
  ∃ sensor,
    discover_sensors topic payload = Return (OneSensor sensor) ∧
    name sensor = segment ∧ _state_key sensor = "temp" ∧
    (payload !! "units" = Some (JStr "F") →
       unit_of_measurement sensor = JStr TEMP_FAHRENHEIT) ∧
    (payload !! "units" ≠ Some (JStr "F") →
       unit_of_measurement sensor = JStr TEMP_CELSIUS).
Proof.
  intros Hdomain Hname.
  rewrite (discover_sensors_domain _ _ _ Hdomain). cbn zeta.
  rewrite bool_decide_eq_true_2 by done.
  rewrite (getitem_Return _ _ _ Hname).
  eexists. split; [reflexivity|]. cbn.
  repeat split.
  - by intros ->.
  - intros Hne. destruct (py_eq_str _ _) eqn:E; [|done].
    apply py_eq_str_true in E. destruct (payload !! "units") as [v|] eqn:Ev.
    + simpl in E. by subst v.
    + discriminate E.
Qed.

Lemma temperature_unit_witness :
  split "/" "arwn/temperature/backyard" !! 1%nat = Some "temperature" ∧
  split "/" "arwn/temperature/backyard" !! 2%nat = Some "backyard" ∧
  ∃ sensor,
    @discover_sensors labels "arwn/temperature/backyard" {["units" := JStr "F"]}
      = Return (OneSensor sensor) ∧
    name sensor = "backyard" ∧ _state_key sensor = "temp" ∧
    (({["units" := JStr "F"]} : gmap string json) !! "units" = Some (JStr "F") →
       unit_of_measurement sensor = JStr (@TEMP_FAHRENHEIT labels)) ∧
    (({["units" := JStr "F"]} : gmap string json) !! "units" ≠ Some (JStr "F") →
       unit_of_measurement sensor = JStr (@TEMP_CELSIUS labels)).
Proof.
  split; [reflexivity|]. split; [reflexivity|].
  apply (@temperature_unit labels "arwn/temperature/backyard"
           {["units" := JStr "F"]} "backyard"); reflexivity.
Defined.

(** C5. A topic whose domain segment is [rain]: when the third segment
    exists and is [today], the classifier gives exactly one sensor, "Rain
    Since Midnight" with state key [since_midnight] and unit "in"; otherwise
    it gives exactly two, "Total Rainfall" ([total]) and "Rainfall Rate"
    ([rate]), both with the payload's [units] value as unit, the empty
    string when the key is absent. *)
Theorem rain_descriptors `{Const} (topic : string) (payload : gmap string json) :
  split "/" topic !! 1%nat = Some "rain" →
  (split "/" topic !! 2%nat = Some "today" →
   ∃ sensor,
     discover_sensors topic payload = Return (OneSensor sensor) ∧
     name sensor = "Rain Since Midnight" ∧
     _state_key sensor = "since_midnight" ∧
     unit_of_measurement sensor = JStr "in") ∧
  (split "/" topic !! 2%nat ≠ Some "today" →
   ∃ total rate,
     discover_sensors topic payload = Return (SensorTuple [total; rate]) ∧
     name total = "Total Rainfall" ∧ _state_key total = "total" ∧
     name rate = "Rainfall Rate" ∧ _state_key rate = "rate" ∧
     unit_of_measurement total = default (JStr "") (payload !! "units") ∧
     unit_of_measurement rate = default (JStr "") (payload !! "units")).
Proof.
  intros Hdomain.
  rewrite (discover_sensors_domain _ _ _ Hdomain). cbn zeta.
  rewrite (bool_decide_eq_false_2 ("rain" = "temperature")) by done.
  rewrite (bool_decide_eq_false_2 ("rain" = "moisture")) by done.
  rewrite (bool_decide_eq_true_2 ("rain" = "rain")) by done.
  split.
  - intros Htoday.
    assert (3 ≤ List.length (split "/" topic))%nat as Hlen.
    { apply lookup_lt_Some in Htoday. lia. }
    rewrite (bool_decide_eq_true_2 _ Hlen), (bool_decide_eq_true_2 _ Htoday).
    eexists. split; [reflexivity|]. by cbn.
  - intros Hother.
    rewrite (bool_decide_eq_false_2 _ Hother), andb_false_r.
    do 2 eexists. split; [reflexivity|]. by cbn.
Qed.

Lemma rain_descriptors_witness :
  split "/" "arwn/rain" !! 1%nat = Some "rain" ∧
  (split "/" "arwn/rain" !! 2%nat = Some "today" →
   ∃ sensor,
     @discover_sensors labels "arwn/rain" {["units" := JStr "in"]}
       = Return (OneSensor sensor) ∧
     name sensor = "Rain Since Midnight" ∧
     _state_key sensor = "since_midnight" ∧
     unit_of_measurement sensor = JStr "in") ∧
  (split "/" "arwn/rain" !! 2%nat ≠ Some "today" →
   ∃ total rate,
     @discover_sensors labels "arwn/rain" {["units" := JStr "in"]}
       = Return (SensorTuple [total; rate]) ∧
     name total = "Total Rainfall" ∧ _state_key total = "total" ∧
     name rate = "Rainfall Rate" ∧ _state_key rate = "rate" ∧
     unit_of_measurement total
       = default (JStr "") (({["units" := JStr "in"]} : gmap string json) !! "units") ∧
     unit_of_measurement rate
       = default (JStr "") (({["units" := JStr "in"]} : gmap string json) !! "units")).
Proof.
  split; [reflexivity|].
  apply (@rain_descriptors labels "arwn/rain" {["units" := JStr "in"]}).
  reflexivity.
Defined.

(** C6. A topic whose domain segment is [wind] is classified, whatever the
    payload, as exactly three sensors: "Wind Speed" ([speed]), "Wind Gust"
    ([gust]) and "Wind Direction" ([direction]). Speed and gust carry the
    payload's [units] value; the unit of the direction sensor is the degree
    symbol for every payload. *)
Theorem wind_descriptors `{Const} (topic : string) (payload : gmap string json) :
  split "/" topic !! 1%nat = Some "wind" →
  ∃ speed gust direction,
    discover_sensors topic payload
      = Return (SensorTuple [speed; gust; direction]) ∧
    name speed = "Wind Speed" ∧ _state_key speed = "speed" ∧
    name gust = "Wind Gust" ∧ _state_key gust = "gust" ∧
    name direction = "Wind Direction" ∧ _state_key direction = "direction" ∧
    unit_of_measurement speed = default (JStr "") (payload !! "units") ∧
    unit_of_measurement gust = default (JStr "") (payload !! "units") ∧
    unit_of_measurement direction = JStr DEGREE.
Proof.
  intros Hdomain.
  rewrite (discover_sensors_domain _ _ _ Hdomain). cbn zeta.
  rewrite (bool_decide_eq_false_2 ("wind" = "temperature")) by done.
  rewrite (bool_decide_eq_false_2 ("wind" = "moisture")) by done.
  rewrite (bool_decide_eq_false_2 ("wind" = "rain")) by done.
  rewrite (bool_decide_eq_false_2 ("wind" = "barometer")) by done.
  rewrite (bool_decide_eq_true_2 ("wind" = "wind")) by done.
  do 3 eexists. split; [reflexivity|]. by cbn.
Qed.

Lemma wind_descriptors_witness :
  split "/" "arwn/wind" !! 1%nat = Some "wind" ∧
  ∃ speed gust direction,
    @discover_sensors labels "arwn/wind" {["units" := JStr "mph"]}
      = Return (SensorTuple [speed; gust; direction]) ∧
    name speed = "Wind Speed" ∧ _state_key speed = "speed" ∧
    name gust = "Wind Gust" ∧ _state_key gust = "gust" ∧
    name direction = "Wind Direction" ∧ _state_key direction = "direction" ∧
    unit_of_measurement speed
      = default (JStr "") (({["units" := JStr "mph"]} : gmap string json) !! "units") ∧
    unit_of_measurement gust
      = default (JStr "") (({["units" := JStr "mph"]} : gmap string json) !! "units") ∧
    unit_of_measurement direction = JStr (@DEGREE labels).
Proof.
  split; [reflexivity|].
  apply (@wind_descriptors labels "arwn/wind" {["units" := JStr "mph"]}).
  reflexivity.
Defined.

(** C10. The classifier reads the payload only at [units]: for one topic,
    two payloads with the same [units] entry (the same value, or both
    without the key) give the same result, the same sensors field by field
    or the same exception. *)
Theorem discover_sensors_units_only `{Const} (topic : string)
    (payload1 payload2 : gmap string json) :
  payload1 !! "units" = payload2 !! "units" →
  discover_sensors topic payload1 = discover_sensors topic payload2.
Proof.
  intros Hunits. unfold discover_sensors. by rewrite Hunits.
Qed.

Lemma discover_sensors_units_only_witness :
  (<["speed" := JInt 5]> {["units" := JStr "mph"]} : gmap string json) !! "units"
    = (<["gust" := JInt 9]> {["units" := JStr "mph"]} : gmap string json) !! "units" ∧
  @discover_sensors labels "arwn/wind" (<["speed" := JInt 5]> {["units" := JStr "mph"]})
    = @discover_sensors labels "arwn/wind" (<["gust" := JInt 9]> {["units" := JStr "mph"]}).
Proof.
  split; [reflexivity|].
  apply (@discover_sensors_units_only labels); reflexivity.
Defined.

(** C2, as the claim states it, fails: on the one-segment topic [arwn]
    (which the subscription [arwn/#] matches) [parts[1]] raises
    [IndexError], and so does [parts[2]] on [arwn/temperature]; neither
    call returns a sequence of sensors, empty or not. *)
Lemma discover_sensors_short_topic_raises :
  @discover_sensors labels "arwn" ∅ = Raise IndexError ∧
  @discover_sensors labels "arwn/temperature" ∅ = Raise IndexError ∧
  ¬ (∃ sensors, @discover_sensors labels "arwn" ∅ = Return sensors).
Proof.
  split; [reflexivity|]. split; [reflexivity|].
  intros [sensors Hret]. discriminate Hret.
Qed.

(** C2, amended. For every topic and payload the classifier either returns
    or raises [IndexError], and it raises exactly on the topics that are too
    short for the lookups it makes: fewer than two segments, or exactly two
    with domain [temperature] or [moisture]. On every other topic it
    returns, and a domain outside the five known ones gives no sensor. *)
Theorem discover_sensors_raises_iff_short `{Const} (topic : string)
    (payload : gmap string json) :
  let parts := split "/" topic in
  let needs_name :=
    parts !! 1%nat = Some "temperature" ∨ parts !! 1%nat = Some "moisture" in
  match discover_sensors topic payload with
  | Raise e =>
      e = IndexError ∧
      (List.length parts < 2 ∨ (List.length parts = 2 ∧ needs_name))%nat
  | Return sensors =>
      (2 ≤ List.length parts)%nat ∧
      (needs_name → (3 ≤ List.length parts)%nat) ∧
      (∀ domain, parts !! 1%nat = Some domain →
         domain ∉ ["temperature"; "moisture"; "rain"; "barometer"; "wind"] →
         sensors = NoSensor ∧ as_tuple sensors = [])
  end.
Proof.
  intros parts needs_name. subst needs_name.
  destruct (parts !! 1%nat) as [domain|] eqn:Hdomain; subst parts.
  2:{ rewrite (discover_sensors_short _ _ Hdomain).
      apply lookup_ge_None in Hdomain. split; [done|]. left. lia. }
  rewrite (discover_sensors_domain _ _ _ Hdomain). cbn zeta.
  pose proof (lookup_lt_Some _ _ _ Hdomain) as Hlen.
  assert (∀ d : string, domain = d →
    match split "/" topic !! 2%nat with
    | Some _ => (3 ≤ List.length (split "/" topic))%nat
    | None => (List.length (split "/" topic) = 2)%nat
    end) as Hthird.
  { intros d _. destruct (split "/" topic !! 2%nat) eqn:E.
    - apply lookup_lt_Some in E. lia.
    - apply lookup_ge_None in E. lia. }
  repeat case_bool_decide; subst.
  1, 2: specialize (Hthird _ eq_refl);
    destruct (split "/" topic !! 2%nat) as [segment|] eqn:Hsegment;
    [ rewrite (getitem_Return _ _ _ Hsegment)
    | rewrite (getitem_Raise _ _ Hsegment) ]; cbn.
  all: try destruct (_ && _); cbn.
  all: try (split; [done|right; split; [lia|]; (by left) || (by right)]).
  all: split; [lia|split].
  all: try (intros [[=]|[=]]; lia).
  all: try (intros d [= <-] Hnot; exfalso; apply Hnot, list_elem_of_In; simpl; tauto).
  - intros [[= ->]|[= ->]]; done.
  - done.
Qed.

(** * The callbacks *)

(** Unfold the monad's operations and compute. *)
Ltac run_callback :=
  unfold mbind, mret, M_bind, M_ret, gets, modify, lift, json_loads; cbn.

Section Callbacks.
Context `{Const}.

Lemma drop_timestamp_delete (ev : gmap string json) :
  drop_timestamp ev = delete "timestamp" ev.
Proof.
  unfold drop_timestamp. destruct (ev !! "timestamp") eqn:E; [done|].
  symmetry. by apply delete_id.
Qed.

(** [set_event] in closed form: it cannot raise, the new attributes are the
    event, and one state write is recorded. *)
Lemma set_event_eq (self : ArwnSensor) (ev : gmap string json) (h : HomeAssistant) :
  set_event self ev h =
    (Return (with_event self ev),
     {| data := data h; added := added h;
        written := written h ++ [(entity_id self, ev)]; log := log h |}).
Proof.
  unfold set_event. cbn.
  assert (ev ∪ (∅ : gmap string json) = ev) as -> by apply (right_id_L ∅ (∪)).
  reflexivity.
Qed.

Lemma message_received_Return (self : ArwnSensor) (msg : Message)
    (ev : gmap string json) (h : HomeAssistant) :
  payload msg = Some ev →
  message_received self msg h =
    (Return (with_event self (delete "timestamp" ev)),
     {| data := data h; added := added h;
        written := written h ++ [(entity_id self, delete "timestamp" ev)];
        log := log h |}).
Proof.
  intros Hev. unfold message_received, json_loads. rewrite Hev.
  rewrite <-drop_timestamp_delete. apply set_event_eq.
Qed.

Lemma message_received_Raise (self : ArwnSensor) (msg : Message)
    (h : HomeAssistant) :
  payload msg = None → message_received self msg h = (Raise JSONDecodeError, h).
Proof.
  intros Hev. unfold message_received, json_loads, lift. by rewrite Hev.
Qed.

Lemma entity_message_received_eq (key : string) (msg : Message) (h : HomeAssistant) :
  entity_message_received key msg h =
    match registry h !! key with
    | Some self =>
        match payload msg with
        | Some ev =>
            (Return tt,
             {| data := Some (<[key := with_event self (delete "timestamp" ev)]>
                                (registry h));
                added := added h;
                written := written h ++ [(entity_id self, delete "timestamp" ev)];
                log := log h |})
        | None => (Raise JSONDecodeError, h)
        end
    | None => (Return tt, h)
    end.
Proof.
  unfold entity_message_received. run_callback.
  destruct (registry h !! key) as [self|]; [|done].
  destruct (payload msg) as [ev|] eqn:Hev.
  - by rewrite (message_received_Return _ _ _ _ Hev).
  - by rewrite (message_received_Raise _ _ _ Hev).
Qed.

(** The loop body in closed form. *)
Lemma register_if_new_eq (ev : gmap string json) (sensor : ArwnSensor)
    (h : HomeAssistant) :
  register_if_new ev sensor h =
    match registry h !! name sensor with
    | None =>
        (Return tt,
         {| data := Some (<[name sensor := with_event (with_hass sensor true) ev]>
                            (registry h));
            added := added h ++ [name sensor];
            written := written h ++ [(entity_id sensor, ev)];
            log := log h ++ [(name sensor, ev)] |})
    | Some _ => (Return tt, h)
    end.
Proof.
  unfold register_if_new. run_callback.
  destruct (registry h !! name sensor); [done|].
  by rewrite set_event_eq.
Qed.

(** The platform callback in closed form: both exceptions leave before any
    write; otherwise the cache exists and the loop runs on it. *)
Lemma async_sensor_event_received_eq (msg : Message) (h : HomeAssistant) :
  async_sensor_event_received msg h =
    match payload msg with
    | None => (Raise JSONDecodeError, h)
    | Some ev =>
        match discover_sensors (topic msg) ev with
        | Raise e => (Raise e, h)
        | Return sensors =>
            if truthy sensors
            then for_each (as_tuple sensors) (register_if_new (drop_timestamp ev))
                   (set_data (Some (registry h)) h)
            else (Return tt, h)
        end
    end.
Proof.
  unfold async_sensor_event_received, json_loads.
  destruct (payload msg) as [ev|]; [|done]. run_callback.
  destruct (discover_sensors (topic msg) ev) as [sensors|e]; [|done].
  destruct (truthy sensors); [|done]. cbn.
  destruct h as [[store|] ? ? ?]; reflexivity.
Qed.

Lemma for_each_cons {A} (x : A) (l : list A) (body : A → M unit) (h : HomeAssistant) :
  for_each (x :: l) body h =
    match body x h with
    | (Return _, h') => for_each l body h'
    | (Raise e, h') => (Raise e, h')
    end.
Proof. reflexivity. Qed.

(** Every sensor the classifier builds has the entity id of its name. *)
Lemma discover_sensors_entity_id (topic : string) (ev : gmap string json)
    (sensors : Discovery) (s : ArwnSensor) :
  discover_sensors topic ev = Return sensors →
  s ∈ as_tuple sensors → entity_id s = _slug (name s).
Proof.
  destruct (split "/" topic !! 1%nat) as [domain|] eqn:Hdomain.
  2:{ by rewrite (discover_sensors_short _ _ Hdomain). }
  rewrite (discover_sensors_domain _ _ _ Hdomain). cbn zeta.
  unfold getitem.
  repeat case_bool_decide;
    try destruct (split "/" topic !! 2%nat);
    try destruct (_ && _); cbn;
    intros [= <-]; cbn; rewrite ?elem_of_cons, ?elem_of_nil;
    intros Hs; decompose [or] Hs; subst; done.
Qed.

Lemma registry_mk (d : gmap string ArwnSensor) (a : list string)
    (w l : list (string * gmap string json)) :
  registry {| data := Some d; added := a; written := w; log := l |} = d.
Proof. reflexivity. Qed.

Lemma with_event_id (s : ArwnSensor) : with_event s (event s) = s.
Proof. by destruct s. Qed.

(** The loop, without any assumption on the host: it does not raise, keeps
    what is cached and gives a new entry the event. *)
Lemma for_each_register_attributes (ev : gmap string json) (l : list ArwnSensor)
    (h : HomeAssistant) :
  ∃ h', for_each l (register_if_new ev) h = (Return tt, h') ∧
    (∀ key s, registry h !! key = Some s → registry h' !! key = Some s) ∧
    (∀ key s, registry h !! key = None → registry h' !! key = Some s →
       event s = ev).
Proof.
  revert h. induction l as [|x l IH]; intros h.
  { exists h. split; [done|]. split; [done|]. intros; congruence. }
  rewrite for_each_cons, register_if_new_eq.
  destruct (registry h !! name x) as [old|] eqn:Hx; [apply IH|].
  match goal with |- context [for_each l _ ?h1] =>
    assert (registry h1
            = <[name x := with_event (with_hass x true) ev]> (registry h))
      as Hreg by reflexivity;
    destruct (IH h1) as (h2 & -> & Hold & Hnew) end.
  exists h2. split; [done|].
  rewrite Hreg in Hold, Hnew. clear Hreg.
  split.
  - intros key s Hs. apply Hold.
    destruct (decide (key = name x)) as [->|Hne]; [congruence|].
    by rewrite lookup_insert_ne.
  - intros key s Hnone Hs.
    destruct (decide (key = name x)) as [->|Hne].
    + specialize (Hold (name x) _ (lookup_insert_eq _ _ _)).
      rewrite Hold in Hs. by injection Hs as <-.
    + apply (Hnew key); [|done]. by rewrite lookup_insert_ne.
Qed.

(** The platform callback on any host: cached entries stay as they are, and
    an entry it adds holds the decoded event without [timestamp]. *)
Lemma async_sensor_event_received_attributes (msg : Message) (h : HomeAssistant) :
  (∀ key s, registry h !! key = Some s →
     registry (async_sensor_event_received msg h).2 !! key = Some s) ∧
  (∀ key s, registry h !! key = None →
     registry (async_sensor_event_received msg h).2 !! key = Some s →
     ∃ ev, payload msg = Some ev ∧ event s = delete "timestamp" ev).
Proof.
  rewrite async_sensor_event_received_eq.
  destruct (payload msg) as [ev|]; [|split; [done|intros; cbn in *; congruence]].
  destruct (discover_sensors (topic msg) ev) as [sensors|e];
    [|split; [done|intros; cbn in *; congruence]].
  destruct (truthy sensors); [|split; [done|intros; cbn in *; congruence]].
  destruct (for_each_register_attributes (drop_timestamp ev) (as_tuple sensors)
              (set_data (Some (registry h)) h)) as (h' & -> & Hold & Hnew).
  cbn [snd]. split; [exact Hold|].
  intros key s Hnone Hs. exists ev. split; [done|].
  rewrite <-drop_timestamp_delete. by eapply Hnew.
Qed.

(** One turn of the loop keeps the cache keyed by name. *)
Lemma register_if_new_well_keyed (ev : gmap string json) (x : ArwnSensor)
    (h : HomeAssistant) :
  entity_id x = _slug (name x) → well_keyed h →
  well_keyed (register_if_new ev x h).2.
Proof.
  intros Hid (Hkeys & Hnodup & Hadded).
  rewrite register_if_new_eq.
  destruct (registry h !! name x) as [old|] eqn:Hx; [done|].
  cbn [snd]. unfold well_keyed. rewrite registry_mk. cbn [added].
  split; [|split].
  - intros key s. destruct (decide (key = name x)) as [->|Hne].
    + rewrite lookup_insert_eq. by intros [= <-].
    + rewrite lookup_insert_ne by done. apply Hkeys.
  - apply NoDup_app. split; [done|]. split; [|apply NoDup_singleton].
    intros key Hin ->%list_elem_of_singleton.
    apply Hadded in Hin. rewrite Hx in Hin. by destruct Hin.
  - intros key. rewrite elem_of_app, list_elem_of_singleton, Hadded.
    destruct (decide (key = name x)) as [->|Hne].
    + rewrite lookup_insert_eq. split; eauto.
    + rewrite lookup_insert_ne by done. split; [by intros [?|?]|by left].
Qed.

Lemma for_each_register_well_keyed (ev : gmap string json) (l : list ArwnSensor)
    (h : HomeAssistant) :
  (∀ s, s ∈ l → entity_id s = _slug (name s)) → well_keyed h →
  well_keyed (for_each l (register_if_new ev) h).2.
Proof.
  revert h. induction l as [|x l IH]; intros h Hids Hwk; [done|].
  rewrite for_each_cons.
  pose proof (register_if_new_well_keyed ev x h (Hids x ltac:(left)) Hwk) as Hwk1.
  destruct (register_if_new ev x h) as [[[]|e] h1] eqn:Hrun; [|done].
  apply IH; [|done]. intros s Hs. apply Hids. by right.
Qed.

(** The platform callback keeps the cache keyed by name. *)
Lemma async_sensor_event_received_well_keyed (msg : Message) (h : HomeAssistant) :
  well_keyed h → well_keyed (async_sensor_event_received msg h).2.
Proof.
  intros Hwk. rewrite async_sensor_event_received_eq.
  destruct (payload msg) as [ev|]; [|done].
  destruct (discover_sensors (topic msg) ev) as [sensors|e] eqn:Hsensors; [|done].
  destruct (truthy sensors); [|done].
  apply for_each_register_well_keyed; [|exact Hwk].
  intros s Hs. by eapply discover_sensors_entity_id.
Qed.

(** An entity callback on such a host: the key set and the descriptor parts
    stay, only the attributes of that entity change. *)
Lemma entity_message_received_spec (key : string) (msg : Message)
    (h : HomeAssistant) :
  well_keyed h →
  ∃ r h', entity_message_received key msg h = (r, h') ∧
    well_keyed h' ∧
    (∀ k s, registry h !! k = Some s →
       ∃ s', registry h' !! k = Some s' ∧ same_sensor s s' ∧ (k ≠ key → s' = s)) ∧
    (∀ k, registry h !! k = None → registry h' !! k = None).
Proof.
  intros Hwk. rewrite entity_message_received_eq.
  assert (∀ s : ArwnSensor, same_sensor s s) as Hrefl by (by intros s).
  destruct (registry h !! key) as [self|] eqn:Hself.
  2:{ do 2 eexists. split; [reflexivity|]. split; [done|]. split; [|done].
      intros k s Hs. eauto. }
  destruct (payload msg) as [ev|].
  2:{ do 2 eexists. split; [reflexivity|]. split; [done|]. split; [|done].
      intros k s Hs. eauto. }
  do 2 eexists. split; [reflexivity|].
  destruct Hwk as (Hkeys & Hnodup & Hadded).
  unfold well_keyed, registry. cbn. fold (registry h).
  split; [split; [|split; [done|]]|split].
  - intros k s. destruct (decide (k = key)) as [->|Hne].
    + rewrite lookup_insert_eq. intros [= <-]. exact (Hkeys _ _ Hself).
    + rewrite lookup_insert_ne by done. apply Hkeys.
  - intros k. rewrite Hadded. destruct (decide (k = key)) as [->|Hne].
    + rewrite lookup_insert_eq, Hself. split; eauto.
    + by rewrite lookup_insert_ne.
  - intros k s Hs. destruct (decide (k = key)) as [->|Hne].
    + rewrite lookup_insert_eq. eexists. split; [done|].
      assert (s = self) as -> by congruence. by split.
    + rewrite lookup_insert_ne by done. eauto.
  - intros k Hk. destruct (decide (k = key)) as [->|Hne]; [congruence|].
    by rewrite lookup_insert_ne.
Qed.

Lemma well_keyed_fresh : well_keyed fresh_hass.
Proof.
  split; [|split].
  - intros key s. unfold registry. cbn. by rewrite lookup_empty.
  - apply NoDup_nil_2.
  - intros key. unfold registry. cbn. rewrite lookup_empty, elem_of_nil.
    split; [done|]. by intros [? ?].
Qed.

Lemma delivery_well_keyed (h h' : HomeAssistant) :
  delivery h h' → well_keyed h → well_keyed h'.
Proof.
  intros [msg h0|key msg h0 _] Hwk.
  - by apply async_sensor_event_received_well_keyed.
  - destruct (entity_message_received_spec key msg h0 Hwk) as (r & h1 & -> & ? & _).
    done.
Qed.

Lemma reachable_well_keyed (h : HomeAssistant) :
  rtc delivery fresh_hass h → well_keyed h.
Proof.
  intros Hreach.
  eapply (rtc_ind_r (λ h, well_keyed h)); [apply well_keyed_fresh| |exact Hreach].
  intros y z _ Hstep Hy. by eapply delivery_well_keyed.
Qed.

Lemma same_sensor_trans (s1 s2 s3 : ArwnSensor) :
  same_sensor s1 s2 → same_sensor s2 s3 → same_sensor s1 s3.
Proof. unfold same_sensor. intuition congruence. Qed.

Lemma delivery_keeps (h h' : HomeAssistant) (key : string) (s : ArwnSensor) :
  well_keyed h → delivery h h' → registry h !! key = Some s →
  ∃ s', registry h' !! key = Some s' ∧ same_sensor s s'.
Proof.
  intros Hwk Hstep. revert Hwk.
  destruct Hstep as [msg h0|k msg h0 _]; intros Hwk Hs.
  - exists s. split; [|done].
    by apply async_sensor_event_received_attributes.
  - destruct (entity_message_received_spec k msg h0 Hwk)
      as (r & h1 & -> & _ & Hold & _).
    destruct (Hold key s Hs) as (s' & ? & ? & _). eauto.
Qed.

End Callbacks.

(** * The cache *)

(** C1, as the claim states it, fails: the cache is keyed by display name,
    not by the slugified identity. The topics [arwn/temperature/A] and
    [arwn/temperature/a] give the names "A" and "a"; both are cached and
    handed to the host, and both sensors have the identity
    [sensor.arwn_a]. *)
Lemma same_identity_cached_twice :
  rtc (@delivery labels) fresh_hass two_cases_hass ∧
  ∃ s1 s2,
    registry two_cases_hass !! "A" = Some s1 ∧
    registry two_cases_hass !! "a" = Some s2 ∧
    name s1 ≠ name s2 ∧
    entity_id s1 = "sensor.arwn_a" ∧ entity_id s2 = "sensor.arwn_a" ∧
    added two_cases_hass = ["A"; "a"].
Proof.
  split.
  - eapply rtc_l; [apply (@to_platform labels upper_message)|].
    apply rtc_once, (@to_platform labels lower_message).
  - do 2 eexists. split; [vm_compute; reflexivity|].
    split; [vm_compute; reflexivity|]. by vm_compute.
Qed.

(** C1, amended. In every host state reachable from the fresh one, the
    cache holds at most one sensor per display name: each entry sits under
    its own name with the entity id made from that name, and was handed to
    the host exactly once. A cached name is never removed or replaced: it
    stays a key through every later callback, with the same descriptor
    (only the attributes change), and a platform callback, which is where
    registration is attempted, leaves an entry that is already there exactly
    as it was. *)
Theorem one_sensor_per_name `{Const} (h h' : HomeAssistant) :
  rtc delivery fresh_hass h →
  rtc delivery h h' →
  (∀ key s, registry h !! key = Some s →
     name s = key ∧ entity_id s = _slug key) ∧
  NoDup (added h) ∧
  (∀ key, key ∈ added h ↔ is_Some (registry h !! key)) ∧
  (∀ key s, registry h !! key = Some s →
     ∃ s', registry h' !! key = Some s' ∧ same_sensor s s') ∧
  (∀ msg key s, registry h !! key = Some s →
     registry (async_sensor_event_received msg h).2 !! key = Some s).
Proof.
  intros Hreach Hlater.
  pose proof (reachable_well_keyed h Hreach) as Hwk.
  destruct (Hwk) as (Hkeys & Hnodup & Hadded).
  split; [|split; [done|split; [done|split]]].
  - intros key s Hs. destruct (Hkeys key s Hs) as (? & ? & _). done.
  - clear Hkeys Hnodup Hadded Hreach.
    induction Hlater as [h|h h1 h2 Hstep Hrest IH]; intros key s Hs.
    + exists s. by split.
    + destruct (delivery_keeps h h1 key s Hwk Hstep Hs) as (s1 & Hs1 & Hsame1).
      destruct (IH (delivery_well_keyed _ _ Hstep Hwk) key s1 Hs1)
        as (s2 & Hs2 & Hsame2).
      exists s2. split; [done|]. by eapply same_sensor_trans.
  - intros msg key s Hs.
    by apply async_sensor_event_received_attributes.
Qed.

Lemma one_sensor_per_name_witness :
  rtc (@delivery labels) fresh_hass backyard_hass ∧
  rtc (@delivery labels) backyard_hass backyard_hass_updated ∧
  (∀ key s, registry backyard_hass !! key = Some s →
     name s = key ∧ entity_id s = _slug key) ∧
  NoDup (added backyard_hass) ∧
  (∀ key, key ∈ added backyard_hass ↔ is_Some (registry backyard_hass !! key)) ∧
  (∀ key s, registry backyard_hass !! key = Some s →
     ∃ s', registry backyard_hass_updated !! key = Some s' ∧ same_sensor s s') ∧
  (∀ msg key s, registry backyard_hass !! key = Some s →
     registry (@async_sensor_event_received labels msg backyard_hass).2 !! key
       = Some s).
Proof.
  assert (rtc (@delivery labels) fresh_hass backyard_hass) as Hreach.
  { apply rtc_once, (@to_platform labels backyard_message). }
  assert (rtc (@delivery labels) backyard_hass backyard_hass_updated) as Hlater.
  { apply rtc_once, (@to_entity labels "backyard" backyard_update).
    apply list_elem_of_In. vm_compute. by left. }
  split; [exact Hreach|]. split; [exact Hlater|].
  exact (@one_sensor_per_name labels _ _ Hreach Hlater).
Defined.

(** * Messages that do not decode *)

(** C3, as the claim states it, fails: on a message whose payload does not
    decode, the platform callback ends with the decode error, so the error
    does reach its caller, and nothing is logged. *)
Lemma garbled_message_raises :
  @async_sensor_event_received labels garbled_message fresh_hass
    = (Raise JSONDecodeError, fresh_hass) ∧
  (@async_sensor_event_received labels garbled_message fresh_hass).1 ≠ Return tt ∧
  log (@async_sensor_event_received labels garbled_message fresh_hass).2 = [].
Proof. split; [reflexivity|]. split; [discriminate|reflexivity]. Qed.

(** C3, amended. When the payload of a message fails to decode, the
    platform callback and an entity's [message_received] raise the decode
    error to their caller and write nothing: the host, with its cache, every
    sensor's attributes, the log and the calls made to the host, is as
    before. The callbacks keep no other state, so a later message is
    handled exactly as if the failed one had never come. *)
Theorem decode_failure_raises_without_change `{Const} (msg : Message)
    (h : HomeAssistant) :
  payload msg = None →
  async_sensor_event_received msg h = (Raise JSONDecodeError, h) ∧
  (∀ self, message_received self msg h = (Raise JSONDecodeError, h)) ∧
  (∀ key, (entity_message_received key msg h).2 = h) ∧
  (∀ later,
     async_sensor_event_received later (async_sensor_event_received msg h).2
       = async_sensor_event_received later h).
Proof.
  intros Hfail.
  assert (async_sensor_event_received msg h = (Raise JSONDecodeError, h)) as Hrun.
  { by rewrite async_sensor_event_received_eq, Hfail. }
  split; [exact Hrun|]. split; [|split].
  - intros self. by apply message_received_Raise.
  - intros key. rewrite entity_message_received_eq, Hfail.
    by destruct (registry h !! key).
  - intros later. by rewrite Hrun.
Qed.

Lemma decode_failure_raises_without_change_witness :
  payload garbled_message = None ∧
  @async_sensor_event_received labels garbled_message backyard_hass
    = (Raise JSONDecodeError, backyard_hass) ∧
  (∀ self, message_received self garbled_message backyard_hass
             = (Raise JSONDecodeError, backyard_hass)) ∧
  (∀ key, (entity_message_received key garbled_message backyard_hass).2
            = backyard_hass) ∧
  (∀ later,
     @async_sensor_event_received labels later
       (@async_sensor_event_received labels garbled_message backyard_hass).2
       = @async_sensor_event_received labels later backyard_hass).
Proof.
  split; [reflexivity|].
  apply (@decode_failure_raises_without_change labels garbled_message backyard_hass).
  reflexivity.
Defined.

(** * Updates *)

(** C7. An update with a decoded payload, in [message_received] of an
    entity and at the first sight of a sensor in the platform callback,
    leaves as the sensor's attributes the payload without its [timestamp]
    key and nothing else: [timestamp] is not among them, and nothing of the
    attributes held before remains. *)
Theorem update_replaces_attributes `{Const} (msg : Message)
    (ev : gmap string json) (h : HomeAssistant) :
  payload msg = Some ev →
  (∀ self, ∃ self' h',
     message_received self msg h = (Return self', h') ∧
     state_attributes self' = delete "timestamp" ev ∧
     state_attributes self' !! "timestamp" = None ∧
     same_sensor self self') ∧
  (∀ key self, registry h !! key = Some self →
     ∃ self', registry (entity_message_received key msg h).2 !! key = Some self' ∧
       state_attributes self' = delete "timestamp" ev ∧
       state_attributes self' !! "timestamp" = None ∧
       same_sensor self self') ∧
  (∀ key s, registry h !! key = None →
     registry (async_sensor_event_received msg h).2 !! key = Some s →
     state_attributes s = delete "timestamp" ev ∧
     state_attributes s !! "timestamp" = None).
Proof.
  intros Hev. split; [|split].
  - intros self. do 2 eexists.
    split; [by apply message_received_Return|].
    split; [done|]. split; [apply lookup_delete_eq|done].
  - intros key self Hself.
    rewrite entity_message_received_eq, Hself, Hev.
    eexists. split; [apply lookup_insert_eq|].
    split; [done|]. split; [apply lookup_delete_eq|done].
  - intros key s Hnone Hs.
    destruct (async_sensor_event_received_attributes msg h) as [_ Hnew].
    destruct (Hnew key s Hnone Hs) as (ev' & Hev' & Hattrs).
    assert (ev' = ev) as -> by congruence.
    unfold state_attributes. rewrite Hattrs.
    split; [done|apply lookup_delete_eq].
Qed.

Lemma update_replaces_attributes_witness :
  payload backyard_update
    = Some (<["timestamp" := JInt 1600000000]>
                (<["temp" := JInt 70]> {["units" := JStr "F"]})) ∧
  ∃ self',
    registry backyard_hass_updated !! "backyard" = Some self' ∧
    state_attributes self' = <["temp" := JInt 70]> {["units" := JStr "F"]} ∧
    state_attributes self' !! "timestamp" = None.
Proof.
  split; [reflexivity|].
  destruct (@update_replaces_attributes labels backyard_update _ backyard_hass
              eq_refl) as (_ & Hentity & _).
  destruct (Hentity "backyard"
              (with_event (with_hass
                 (ArwnSensor_init "backyard" "temp" (JStr "°F")
                    "arwn/temperature/backyard" None) true)
                 (<["temp" := JFloat float_72_5]> {["units" := JStr "F"]})))
    as (self' & Hself' & Hattrs & Hnone & _); [by vm_compute|].
  exists self'. split; [exact Hself'|]. split; [|exact Hnone].
  rewrite Hattrs. by vm_compute.
Defined.

(** C8. Applying the same message twice is the same as applying it once.
    When the payload decodes, the first [message_received] returns the
    entity with the new attributes and the second returns that entity
    unchanged; when it does not decode, nothing is written at all. The cache
    after two deliveries to an entity is the cache after one, and so is the
    cache when the entity's callback gets the very message at which the
    platform callback first cached the entity. *)
Theorem update_idempotent `{Const} (self : ArwnSensor) (key : string)
    (msg : Message) (h : HomeAssistant) :
  match payload msg with
  | Some ev =>
      ∃ self1 h1 h2,
        message_received self msg h = (Return self1, h1) ∧
        message_received self1 msg h1 = (Return self1, h2) ∧
        state_attributes self1 = delete "timestamp" ev
  | None => message_received self msg h = (Raise JSONDecodeError, h)
  end ∧
  registry (entity_message_received key msg
              (entity_message_received key msg h).2).2
    = registry (entity_message_received key msg h).2 ∧
  (registry h !! key = None →
   registry (entity_message_received key msg
               (async_sensor_event_received msg h).2).2
     = registry (async_sensor_event_received msg h).2).
Proof.
  split; [|split].
  - destruct (payload msg) as [ev|] eqn:Hev.
    + do 3 eexists.
      split; [by apply message_received_Return|].
      split; [|done].
      rewrite (message_received_Return _ _ _ _ Hev). reflexivity.
    + by apply message_received_Raise.
  - rewrite (entity_message_received_eq key msg h).
    destruct (registry h !! key) as [s|] eqn:Hs.
    2:{ cbn [snd]. by rewrite entity_message_received_eq, Hs. }
    destruct (payload msg) as [ev|] eqn:Hev.
    2:{ cbn [snd]. by rewrite entity_message_received_eq, Hs, Hev. }
    cbn [snd]. rewrite entity_message_received_eq, Hev.
    rewrite !registry_mk, lookup_insert_eq. cbn [snd].
    by rewrite registry_mk, insert_insert_eq.
  - intros Hnone.
    destruct (async_sensor_event_received_attributes msg h) as [_ Hnew].
    set (h1 := (async_sensor_event_received msg h).2) in *.
    rewrite entity_message_received_eq.
    destruct (registry h1 !! key) as [s|] eqn:Hs; [|done].
    destruct (Hnew key s Hnone Hs) as (ev & -> & Hattrs).
    cbn [snd]. rewrite <-Hattrs, with_event_id, registry_mk.
    by apply insert_id.
Qed.

(** * End to end *)

(** C9. From a fresh host, one message on [arwn/temperature/backyard] with
    the object [{units: "F", temp: 72.5}] leaves a cache with exactly one
    sensor; its entity id is [sensor.arwn_backyard], its reading 72.5 and
    its unit the Fahrenheit label. *)
Theorem backyard_end_to_end `{Const} :
  (async_sensor_event_received backyard_message fresh_hass).1 = Return tt ∧
  ∃ sensor,
    registry (async_sensor_event_received backyard_message fresh_hass).2
      = {["backyard" := sensor]} ∧
    entity_id sensor = "sensor.arwn_backyard" ∧
    state sensor = JFloat float_72_5 ∧
    unit_of_measurement sensor = JStr TEMP_FAHRENHEIT.
Proof.
  split; [reflexivity|].
  eexists. split; [reflexivity|].
  split; [reflexivity|]. split; reflexivity.
Qed.

(** * More on the classifier *)

Section ClassifierShapes.
Context `{Const}.

(** Every result of the classifier is one of seven shapes. *)
Lemma discover_sensors_inv (topic : string) (payload : gmap string json)
    (sensors : Discovery) :
  discover_sensors topic payload = Return sensors →
  let unit := default (JStr "") (payload !! "units") in
  (∃ segment, split "/" topic !! 2%nat = Some segment ∧
     sensors = OneSensor (ArwnSensor_init segment "temp"
                 (if py_eq_str unit "F" then JStr TEMP_FAHRENHEIT
                  else JStr TEMP_CELSIUS) topic None)) ∨
  (∃ segment, split "/" topic !! 2%nat = Some segment ∧
     sensors = OneSensor (ArwnSensor_init (segment ++ " Moisture") "moisture"
                 unit topic (Some "mdi:water-percent"))) ∨
  sensors = OneSensor (ArwnSensor_init "Rain Since Midnight" "since_midnight"
              (JStr "in") topic (Some "mdi:water")) ∨
  sensors = SensorTuple
              [ ArwnSensor_init "Total Rainfall" "total" unit topic
                  (Some "mdi:water");
                ArwnSensor_init "Rainfall Rate" "rate" unit topic
                  (Some "mdi:water") ] ∨
  sensors = OneSensor (ArwnSensor_init "Barometer" "pressure" unit topic
              (Some "mdi:thermometer-lines")) ∨
  sensors = SensorTuple
              [ ArwnSensor_init "Wind Speed" "speed" unit topic
                  (Some "mdi:speedometer");
                ArwnSensor_init "Wind Gust" "gust" unit topic
                  (Some "mdi:speedometer");
                ArwnSensor_init "Wind Direction" "direction" (JStr DEGREE)
                  topic (Some "mdi:compass") ] ∨
  sensors = NoSensor.
Proof.
  destruct (split "/" topic !! 1%nat) as [domain|] eqn:Hdomain.
  2:{ by rewrite (discover_sensors_short _ _ Hdomain). }
  rewrite (discover_sensors_domain _ _ _ Hdomain). cbn zeta.
  unfold getitem.
  repeat case_bool_decide;
    try destruct (split "/" topic !! 2%nat) as [segment|];
    try destruct (_ && _); cbn; intros [= <-]; eauto 10.
Qed.

Lemma classified_topic_state_key (topic : string) (payload : gmap string json)
    (sensors : Discovery) (s : ArwnSensor) :
  discover_sensors topic payload = Return sensors →
  s ∈ as_tuple sensors →
  _topic s = topic ∧ _state_key s ≠ "timestamp".
Proof.
  intros Hrun Hs.
  destruct (discover_sensors_inv _ _ _ Hrun)
    as [(? & _ & ->)|[(? & _ & ->)|[->|[->|[->|[->| ->]]]]]];
    cbn in Hs; rewrite ?elem_of_cons, ?elem_of_nil in Hs;
    decompose [or] Hs; subst; done.
Qed.

Lemma classified_names_shape (topic : string) (payload : gmap string json)
    (sensors : Discovery) :
  discover_sensors topic payload = Return sensors →
  NoDup (name <$> as_tuple sensors) ∧
  (truthy sensors = false ↔ as_tuple sensors = []).
Proof.
  intros Hrun.
  destruct (discover_sensors_inv _ _ _ Hrun)
    as [(? & _ & ->)|[(? & _ & ->)|[->|[->|[->|[->| ->]]]]]];
    cbn; (split; [|done]);
    apply NoDup_ListNoDup; repeat constructor; cbn; intuition discriminate.
Qed.

End ClassifierShapes.

(** X1. A topic whose domain segment is [moisture] and that has a name
    segment is classified as exactly one sensor: its name is that segment
    followed by " Moisture", its state key [moisture], its unit the
    payload's [units] value (the empty string when absent) and its icon
    [mdi:water-percent]. *)
Theorem moisture_descriptor `{Const} (topic : string) (payload : gmap string json)
    (segment : string) :
  split "/" topic !! 1%nat = Some "moisture" →
  split "/" topic !! 2%nat = Some segment →
  ∃ sensor,
    discover_sensors topic payload = Return (OneSensor sensor) ∧
    name sensor = segment ++ " Moisture" ∧
    _state_key sensor = "moisture" ∧
    unit_of_measurement sensor = default (JStr "") (payload !! "units") ∧
    icon sensor = Some "mdi:water-percent".
Proof.
  intros Hdomain Hname.
  rewrite (discover_sensors_domain _ _ _ Hdomain). cbn zeta.
  rewrite (bool_decide_eq_false_2 ("moisture" = "temperature")) by done.
  rewrite (bool_decide_eq_true_2 ("moisture" = "moisture")) by done.
  rewrite (getitem_Return _ _ _ Hname).
  eexists. split; [reflexivity|]. by cbn.
Qed.

Lemma moisture_descriptor_witness :
  split "/" "arwn/moisture/garden" !! 1%nat = Some "moisture" ∧
  split "/" "arwn/moisture/garden" !! 2%nat = Some "garden" ∧
  ∃ sensor,
    @discover_sensors labels "arwn/moisture/garden" {["units" := JStr "%"]}
      = Return (OneSensor sensor) ∧
    name sensor = "garden" ++ " Moisture" ∧
    _state_key sensor = "moisture" ∧
    unit_of_measurement sensor
      = default (JStr "") (({["units" := JStr "%"]} : gmap string json) !! "units") ∧
    icon sensor = Some "mdi:water-percent".
Proof.
  split; [reflexivity|]. split; [reflexivity|].
  apply (@moisture_descriptor labels "arwn/moisture/garden"
           {["units" := JStr "%"]} "garden"); reflexivity.
Defined.

(** X2. A topic whose domain segment is [barometer] is classified, whatever
    follows the domain, as exactly one sensor named "Barometer" with state
    key [pressure], the payload's [units] value as unit and the icon
    [mdi:thermometer-lines]. *)
Theorem barometer_descriptor `{Const} (topic : string) (payload : gmap string json) :
  split "/" topic !! 1%nat = Some "barometer" →
  ∃ sensor,
    discover_sensors topic payload = Return (OneSensor sensor) ∧
    name sensor = "Barometer" ∧
    _state_key sensor = "pressure" ∧
    unit_of_measurement sensor = default (JStr "") (payload !! "units") ∧
    icon sensor = Some "mdi:thermometer-lines".
Proof.
  intros Hdomain.
  rewrite (discover_sensors_domain _ _ _ Hdomain). cbn zeta.
  rewrite (bool_decide_eq_false_2 ("barometer" = "temperature")) by done.
  rewrite (bool_decide_eq_false_2 ("barometer" = "moisture")) by done.
  rewrite (bool_decide_eq_false_2 ("barometer" = "rain")) by done.
  rewrite (bool_decide_eq_true_2 ("barometer" = "barometer")) by done.
  eexists. split; [reflexivity|]. by cbn.
Qed.

Lemma barometer_descriptor_witness :
  split "/" "arwn/barometer" !! 1%nat = Some "barometer" ∧
  ∃ sensor,
    @discover_sensors labels "arwn/barometer" {["units" := JStr "mbar"]}
      = Return (OneSensor sensor) ∧
    name sensor = "Barometer" ∧
    _state_key sensor = "pressure" ∧
    unit_of_measurement sensor
      = default (JStr "") (({["units" := JStr "mbar"]} : gmap string json) !! "units") ∧
    icon sensor = Some "mdi:thermometer-lines".
Proof.
  split; [reflexivity|].
  apply (@barometer_descriptor labels "arwn/barometer" {["units" := JStr "mbar"]}).
  reflexivity.
Defined.

(** X3. Whatever the classifier returns, each sensor in it is as
    [__init__] leaves it and belongs to the topic classified: its topic is
    the topic given, its attributes are empty, so that it has no reading,
    the host handle is unset, and its entity id is made from its name. *)
Theorem classified_sensor_is_fresh `{Const} (topic : string)
    (payload : gmap string json) (sensors : Discovery) (s : ArwnSensor) :
  discover_sensors topic payload = Return sensors →
  s ∈ as_tuple sensors →
  _topic s = topic ∧ state_attributes s = ∅ ∧ state s = JNull ∧
  hass s = false ∧ entity_id s = _slug (name s).
Proof.
  intros Hrun Hs.
  destruct (discover_sensors_inv _ _ _ Hrun)
    as [(? & _ & ->)|[(? & _ & ->)|[->|[->|[->|[->| ->]]]]]];
    cbn in Hs; rewrite ?elem_of_cons, ?elem_of_nil in Hs;
    decompose [or] Hs; subst; done.
Qed.

Lemma classified_sensor_is_fresh_witness :
  let s := ArwnSensor_init "Wind Gust" "gust" (JStr "mph") "arwn/wind"
             (Some "mdi:speedometer") in
  _topic s = "arwn/wind" ∧ state_attributes s = ∅ ∧ state s = JNull ∧
  hass s = false ∧ entity_id s = _slug (name s).
Proof.
  apply (@classified_sensor_is_fresh labels "arwn/wind" {["units" := JStr "mph"]}
           (SensorTuple
              [ ArwnSensor_init "Wind Speed" "speed" (JStr "mph") "arwn/wind"
                  (Some "mdi:speedometer");
                ArwnSensor_init "Wind Gust" "gust" (JStr "mph") "arwn/wind"
                  (Some "mdi:speedometer");
                ArwnSensor_init "Wind Direction" "direction" (JStr "°")
                  "arwn/wind" (Some "mdi:compass") ])).
  - reflexivity.
  - cbn. apply list_elem_of_In. right. left. reflexivity.
Defined.



(** X5. The state key and the icon of a classified sensor go together, and
    the state key is one of nine: [temp] has no icon, [moisture] has
    [mdi:water-percent], the three rain keys have [mdi:water], [pressure]
    has [mdi:thermometer-lines], [speed] and [gust] have [mdi:speedometer]
    and [direction] has [mdi:compass]. No state key is [timestamp]. *)
Theorem classified_state_key_icon `{Const} (topic : string)
    (payload : gmap string json) (sensors : Discovery) (s : ArwnSensor) :
  discover_sensors topic payload = Return sensors →
  s ∈ as_tuple sensors →
  (_state_key s, icon s) ∈
    [ ("temp", None);
      ("moisture", Some "mdi:water-percent");
      ("since_midnight", Some "mdi:water");
      ("total", Some "mdi:water");
      ("rate", Some "mdi:water");
      ("pressure", Some "mdi:thermometer-lines");
      ("speed", Some "mdi:speedometer");
      ("gust", Some "mdi:speedometer");
      ("direction", Some "mdi:compass") ] ∧
  _state_key s ≠ "timestamp".
Proof.
  intros Hrun Hs.
  destruct (discover_sensors_inv _ _ _ Hrun)
    as [(? & _ & ->)|[(? & _ & ->)|[->|[->|[->|[->| ->]]]]]];
    cbn in Hs; rewrite ?elem_of_cons, ?elem_of_nil in Hs;
    decompose [or] Hs; subst; (split; [|done]);
    apply list_elem_of_In; cbn; tauto.
Qed.

Lemma classified_state_key_icon_witness :
  let s := ArwnSensor_init "Barometer" "pressure" (JStr "") "arwn/barometer"
             (Some "mdi:thermometer-lines") in
  (_state_key s, icon s) ∈
    [ ("temp", None);
      ("moisture", Some "mdi:water-percent");
      ("since_midnight", Some "mdi:water");
      ("total", Some "mdi:water");
      ("rate", Some "mdi:water");
      ("pressure", Some "mdi:thermometer-lines");
      ("speed", Some "mdi:speedometer");
      ("gust", Some "mdi:speedometer");
      ("direction", Some "mdi:compass") ] ∧
  _state_key s ≠ "timestamp".
Proof.
  apply (@classified_state_key_icon labels "arwn/barometer" ∅
           (OneSensor (ArwnSensor_init "Barometer" "pressure" (JStr "")
                         "arwn/barometer" (Some "mdi:thermometer-lines")))).
  - reflexivity.
  - cbn. apply list_elem_of_In. left. reflexivity.
Defined.

(** * Topic segments *)

Lemma split_cons_inv (sep : ascii) (s : string) :
  ∃ piece pieces, split sep s = piece :: pieces.
Proof.
  pose proof (split_length sep s) as Hlen.
  destruct (split sep s) as [|piece pieces]; [cbn in Hlen; lia|eauto].
Qed.

Lemma concat_cons_char (sep : string) (c : ascii) (piece : string)
    (pieces : list string) :
  String.concat sep (String c piece :: pieces)
    = String c (String.concat sep (piece :: pieces)).
Proof. by destruct pieces. Qed.

Lemma split_pieces_without_separator (sep : ascii) (s : string) (piece : string) :
  piece ∈ split sep s → ¬ In sep (list_ascii_of_string piece).
Proof.
  revert piece. induction s as [|c s IH]; intros p.
  { intros ->%list_elem_of_singleton. cbn. tauto. }
  cbn [split]. destruct (split_cons_inv sep s) as (piece & pieces & Hsplit).
  rewrite Hsplit in *. destruct (Ascii.eqb_spec c sep) as [->|Hne].
  - intros [->|Hp]%elem_of_cons; [cbn; tauto|by apply IH].
  - intros [->|Hp]%elem_of_cons.
    + cbn. intros [?|Hin]; [done|]. apply (IH piece); [by left|done].
    + apply IH. by right.
Qed.

Lemma split_without_separator (sep : ascii) (s : string) :
  ¬ In sep (list_ascii_of_string s) → split sep s = [s].
Proof.
  induction s as [|c s IH]; [done|]. cbn. intros Hnot.
  destruct (Ascii.eqb_spec c sep) as [->|Hne]; [tauto|].
  rewrite IH; [done|tauto].
Qed.

(** X6. [topic.split("/")] loses nothing and cuts at every separator:
    joining the pieces with the separator gives the string back, no piece
    contains the separator, and a string without the separator is its own
    single piece. *)
Theorem split_concat (sep : ascii) (s : string) :
  String.concat (String sep EmptyString) (split sep s) = s ∧
  (∀ piece, piece ∈ split sep s → ¬ In sep (list_ascii_of_string piece)) ∧
  (¬ In sep (list_ascii_of_string s) → split sep s = [s]).
Proof.
  split; [|split].
  - induction s as [|c s IH]; [done|].
    cbn [split]. destruct (split_cons_inv sep s) as (piece & pieces & Hsplit).
    rewrite Hsplit in *. destruct (Ascii.eqb_spec c sep) as [->|Hne].
    + cbn. cbn in IH. by rewrite IH.
    + by rewrite concat_cons_char, IH.
  - apply split_pieces_without_separator.
  - apply split_without_separator.
Qed.

(** X7. A topic without a slash has no domain segment: the classifier
    raises [IndexError] on it, for every payload. The empty topic is one. *)
Theorem topic_without_slash_raises `{Const} (topic : string)
    (payload : gmap string json) :
  ¬ In "/"%char (list_ascii_of_string topic) →
  discover_sensors topic payload = Raise IndexError.
Proof.
  intros Hnone. apply discover_sensors_short.
  by rewrite (split_without_separator _ _ Hnone).
Qed.

Lemma topic_without_slash_raises_witness :
  ¬ In "/"%char (list_ascii_of_string "") ∧
  @discover_sensors labels "" ∅ = Raise IndexError.
Proof.
  assert (¬ In "/"%char (list_ascii_of_string "")) as Hnone by (cbn; tauto).
  split; [exact Hnone|].
  exact (@topic_without_slash_raises labels "" ∅ Hnone).
Defined.

Lemma in_list_ascii_app (c : ascii) (s1 s2 : string) :
  In c (list_ascii_of_string (s1 ++ s2)) →
  In c (list_ascii_of_string s1) ∨ In c (list_ascii_of_string s2).
Proof.
  induction s1 as [|c1 s1 IH]; cbn; [tauto|].
  intros [?|Hin]; [tauto|]. destruct (IH Hin); tauto.
Qed.

(** X8. The name of a classified sensor never contains a slash: it is a
    topic segment, a topic segment followed by " Moisture", or one of the
    fixed names. *)
Theorem classified_name_without_slash `{Const} (topic : string)
    (payload : gmap string json) (sensors : Discovery) (s : ArwnSensor) :
  discover_sensors topic payload = Return sensors →
  s ∈ as_tuple sensors →
  ¬ In "/"%char (list_ascii_of_string (name s)).
Proof.
  intros Hrun Hs.
  pose proof (split_pieces_without_separator "/" topic) as Hpieces.
  destruct (discover_sensors_inv _ _ _ Hrun)
    as [(seg & Hseg & ->)|[(seg & Hseg & ->)|[->|[->|[->|[->| ->]]]]]];
    cbn in Hs; rewrite ?elem_of_cons, ?elem_of_nil in Hs;
    decompose [or] Hs; subst; cbn -[list_ascii_of_string String.append];
    try (cbn; intuition discriminate).
  - eapply Hpieces, list_elem_of_lookup_2, Hseg.
  - intros [Hin|Hin]%in_list_ascii_app.
    + by eapply Hpieces; [eapply list_elem_of_lookup_2, Hseg|].
    + cbn in Hin. intuition discriminate.
Qed.

Lemma classified_name_without_slash_witness :
  ¬ In "/"%char (list_ascii_of_string "backyard").
Proof.
  apply (@classified_name_without_slash labels "arwn/temperature/backyard" ∅
           (OneSensor (ArwnSensor_init "backyard" "temp" (JStr "°C")
                         "arwn/temperature/backyard" None))
           (ArwnSensor_init "backyard" "temp" (JStr "°C")
              "arwn/temperature/backyard" None)).
  - reflexivity.
  - cbn. apply list_elem_of_In. left. reflexivity.
Defined.

(** * More on the platform callback *)

Section Registration.
Context `{Const}.

Lemma register_if_new_Return (ev : gmap string json) (x : ArwnSensor)
    (h : HomeAssistant) :
  (register_if_new ev x h).1 = Return tt.
Proof. rewrite register_if_new_eq. by destruct (registry h !! name x). Qed.

(** A property of the host that every turn of the loop keeps holds after
    the loop. *)
Lemma for_each_register_keeps (J : HomeAssistant → Prop) (ev : gmap string json)
    (l : list ArwnSensor) (h : HomeAssistant) :
  (∀ x h0, x ∈ l → J h0 → J (register_if_new ev x h0).2) →
  J h → J (for_each l (register_if_new ev) h).2.
Proof.
  revert h. induction l as [|x l IH]; intros h Hstep Hh; [done|].
  rewrite for_each_cons.
  pose proof (register_if_new_Return ev x h) as Hret.
  pose proof (Hstep x h ltac:(left) Hh) as Hh1.
  destruct (register_if_new ev x h) as [[[]|e] h1]; [|done].
  apply IH; [|done]. intros y h0 Hy. apply Hstep. by right.
Qed.

(** The loop on sensors with pairwise different names: the keys afterwards
    are the keys before and the names, and a sensor whose name was free is
    cached with the host handle and the event. *)
Lemma for_each_register_complete (ev : gmap string json) (l : list ArwnSensor)
    (h : HomeAssistant) :
  NoDup (name <$> l) →
  ∃ h', for_each l (register_if_new ev) h = (Return tt, h') ∧
    (∀ key, is_Some (registry h' !! key) ↔
            is_Some (registry h !! key) ∨ key ∈ name <$> l) ∧
    (∀ s, s ∈ l → registry h !! name s = None →
       registry h' !! name s = Some (with_event (with_hass s true) ev)).
Proof.
  revert h. induction l as [|x l IH]; intros h Hnodup.
  { exists h. split; [done|]. split.
    - intros key. rewrite fmap_nil, elem_of_nil. tauto.
    - by intros s ?%elem_of_nil. }
  rewrite fmap_cons in Hnodup. apply NoDup_cons in Hnodup as [Hfresh Hnodup].
  rewrite for_each_cons, register_if_new_eq.
  destruct (registry h !! name x) as [old|] eqn:Hx.
  - destruct (IH h Hnodup) as (h' & -> & Hkeys & Hnew).
    exists h'. split; [done|]. split.
    + intros key. rewrite Hkeys, fmap_cons, elem_of_cons.
      split; [tauto|]. intros [?|[->|?]]; [tauto| |tauto]. left. by rewrite Hx.
    + intros s [->|Hs]%elem_of_cons Hnone; [congruence|by apply Hnew].
  - match goal with |- context [for_each l _ ?h1] =>
      assert (registry h1
              = <[name x := with_event (with_hass x true) ev]> (registry h))
        as Hreg by reflexivity;
      destruct (IH h1 Hnodup) as (h' & Hrun & Hkeys & Hnew);
      destruct (for_each_register_attributes ev l h1) as (h2 & Hrun2 & Hold & _)
    end.
    rewrite Hrun in Hrun2. injection Hrun2 as <-. rewrite Hrun.
    rewrite Hreg in Hkeys, Hnew, Hold. clear Hreg.
    exists h'. split; [done|]. split.
    + intros key. rewrite Hkeys, fmap_cons, elem_of_cons.
      destruct (decide (key = name x)) as [->|Hne].
      * rewrite lookup_insert_eq. split; [tauto|]. intros _. left. eauto.
      * rewrite lookup_insert_ne by done. tauto.
    + intros s [->|Hs]%elem_of_cons Hnone.
      * apply Hold, lookup_insert_eq.
      * apply Hnew; [done|].
        rewrite lookup_insert_ne; [done|].
        intros Heq. apply Hfresh. rewrite Heq. by apply list_elem_of_fmap_2.
Qed.

(** The loop on sensors whose names are all cached does nothing. *)
Lemma for_each_register_cached (ev : gmap string json) (l : list ArwnSensor)
    (h : HomeAssistant) :
  (∀ s, s ∈ l → is_Some (registry h !! name s)) →
  for_each l (register_if_new ev) h = (Return tt, h).
Proof.
  induction l as [|x l IH]; intros Hall; [done|].
  rewrite for_each_cons, register_if_new_eq.
  destruct (Hall x ltac:(left)) as [old ->].
  apply IH. intros s Hs. apply Hall. by right.
Qed.

Lemma set_data_registry_id (h : HomeAssistant) :
  is_Some (data h) → set_data (Some (registry h)) h = h.
Proof. destruct h as [[store|] ? ? ?]; [done|]. by intros [? [=]]. Qed.

Lemma register_if_new_data (ev : gmap string json) (x : ArwnSensor)
    (h : HomeAssistant) :
  is_Some (data h) → is_Some (data (register_if_new ev x h).2).
Proof.
  rewrite register_if_new_eq. destruct (registry h !! name x); [done|].
  intros _. cbn. eauto.
Qed.

End Registration.





(** X11. The platform callback is idempotent on the whole host: run again
    on the same message it gives the same outcome and changes nothing, no
    cache entry, no state write, no log record and no entity handed over. *)
Theorem platform_callback_idempotent `{Const} (msg : Message) (h : HomeAssistant) :
  async_sensor_event_received msg (async_sensor_event_received msg h).2
    = ((async_sensor_event_received msg h).1,
       (async_sensor_event_received msg h).2).
Proof.
  rewrite (async_sensor_event_received_eq msg h).
  destruct (payload msg) as [ev|] eqn:Hev.
  2:{ cbn [fst snd]. by rewrite async_sensor_event_received_eq, Hev. }
  destruct (discover_sensors (topic msg) ev) as [sensors|e] eqn:Hrun.
  2:{ cbn [fst snd]. by rewrite async_sensor_event_received_eq, Hev, Hrun. }
  destruct (truthy sensors) eqn:Htruthy.
  2:{ cbn [fst snd].
      by rewrite async_sensor_event_received_eq, Hev, Hrun, Htruthy. }
  destruct (classified_names_shape _ _ _ Hrun) as [Hnodup _].
  destruct (for_each_register_complete (drop_timestamp ev) (as_tuple sensors)
              (set_data (Some (registry h)) h) Hnodup)
    as (h' & Hloop & Hkeys & _).
  assert (is_Some (data h')) as Hdata.
  { pose proof (for_each_register_keeps (λ h0, is_Some (data h0))
                  (drop_timestamp ev) (as_tuple sensors)
                  (set_data (Some (registry h)) h)) as Hkeep.
    rewrite Hloop in Hkeep. apply Hkeep; [|by eexists].
    intros x h0 _. apply register_if_new_data. }
  rewrite Hloop. cbn [fst snd].
  rewrite async_sensor_event_received_eq, Hev, Hrun, Htruthy.
  rewrite (set_data_registry_id h' Hdata).
  apply for_each_register_cached.
  intros s Hs. apply Hkeys. right. by apply list_elem_of_fmap_2.
Qed.

(** * What holds of every reachable host *)

Section Reachable.
Context `{Const}.

(** A property of the host holds in every reachable state when it holds of
    the fresh host and is kept by making the cache dictionary, by one turn
    of the registration loop on a classified sensor, and by an entity
    callback. *)
Lemma reachable_invariant (J : HomeAssistant → Prop) :
  J fresh_hass →
  (∀ h, J h → J (set_data (Some (registry h)) h)) →
  (∀ topic ev sensors x h,
     discover_sensors topic ev = Return sensors → x ∈ as_tuple sensors →
     J h → J (register_if_new (drop_timestamp ev) x h).2) →
  (∀ key msg h, J h → J (entity_message_received key msg h).2) →
  ∀ h, rtc delivery fresh_hass h → J h.
Proof.
  intros Hfresh Hdict Hturn Hentity h Hreach.
  eapply (rtc_ind_r (λ h, J h)); [exact Hfresh| |exact Hreach].
  intros h1 h2 _ Hstep Hh1. destruct Hstep as [msg h1|key msg h1 _].
  - rewrite async_sensor_event_received_eq.
    destruct (payload msg) as [ev|]; [|done].
    destruct (discover_sensors (topic msg) ev) as [sensors|e] eqn:Hrun; [|done].
    destruct (truthy sensors); [|done].
    apply for_each_register_keeps; [|by apply Hdict].
    intros x h0 Hx. by eapply Hturn.
  - by apply Hentity.
Qed.

End Reachable.





Section ReachableSensors.
Context `{Const}.


End ReachableSensors.

(** X14. Every sensor in the cache of a reachable host is a sensor of the
    classifier: its own topic classifies, for some payload, to a result with
    a sensor of the same entity id, name, state key, unit, icon and topic.
    The cached one has the host handle set. *)
Theorem cached_sensor_is_classified `{Const} (h : HomeAssistant) (key : string)
    (s : ArwnSensor) :
  rtc delivery fresh_hass h →
  registry h !! key = Some s →
  hass s = true ∧
  ∃ payload sensors s0,
    discover_sensors (_topic s) payload = Return sensors ∧
    s0 ∈ as_tuple sensors ∧ same_sensor s0 s.
Proof.
  intros Hreach. revert key s. revert h Hreach.
  apply (reachable_invariant
           (λ h, ∀ key s, registry h !! key = Some s →
              hass s = true ∧
              ∃ payload sensors s0,
                discover_sensors (_topic s) payload = Return sensors ∧
                s0 ∈ as_tuple sensors ∧ same_sensor s0 s)).
  - intros key s. unfold registry. cbn. by rewrite lookup_empty.
  - done.
  - intros topic ev sensors x h Hrun Hx Hcache.
    rewrite register_if_new_eq.
    destruct (registry h !! name x); [done|]. cbn [snd]. rewrite registry_mk.
    intros key s. destruct (decide (key = name x)) as [->|Hne].
    + rewrite lookup_insert_eq. intros [= <-]. split; [done|].
      destruct (classified_topic_state_key _ _ _ _ Hrun Hx) as [Htopic _].
      exists ev, sensors, x. cbn. rewrite Htopic. by repeat split.
    + rewrite lookup_insert_ne by done. apply Hcache.
  - intros key msg h Hcache.
    rewrite entity_message_received_eq.
    destruct (registry h !! key) as [self|] eqn:Hself; [|done].
    destruct (payload msg) as [ev|]; [|done]. cbn [snd]. rewrite registry_mk.
    intros k s. destruct (decide (k = key)) as [->|Hne].
    + rewrite lookup_insert_eq. intros [= <-].
      exact (Hcache key self Hself).
    + rewrite lookup_insert_ne by done. apply Hcache.
Qed.

Lemma cached_sensor_is_classified_witness :
  rtc (@delivery labels) fresh_hass backyard_hass ∧
  ∃ s, registry backyard_hass !! "backyard" = Some s ∧
    hass s = true ∧
    ∃ payload sensors s0,
      @discover_sensors labels (_topic s) payload = Return sensors ∧
      s0 ∈ as_tuple sensors ∧ same_sensor s0 s.
Proof.
  assert (rtc (@delivery labels) fresh_hass backyard_hass) as Hreach.
  { apply rtc_once, (@to_platform labels backyard_message). }
  split; [exact Hreach|].
  eexists. split; [by vm_compute|].
  apply (@cached_sensor_is_classified labels backyard_hass "backyard" _ Hreach).
  by vm_compute.
Defined.






(** * Order of arrival *)

Section Order.
Context `{Const}.

(** The cache after the platform callback, entry by entry. *)
Lemma platform_callback_cache (msg : Message) (ev : gmap string json)
    (sensors : Discovery) (h : HomeAssistant) :
  payload msg = Some ev →
  discover_sensors (topic msg) ev = Return sensors →
  (∀ key s, registry h !! key = Some s →
     registry (async_sensor_event_received msg h).2 !! key = Some s) ∧
  (∀ key, is_Some (registry (async_sensor_event_received msg h).2 !! key) ↔
          is_Some (registry h !! key) ∨ key ∈ name <$> as_tuple sensors) ∧
  (∀ s, s ∈ as_tuple sensors → registry h !! name s = None →
     registry (async_sensor_event_received msg h).2 !! name s
       = Some (with_event (with_hass s true) (delete "timestamp" ev))).
Proof.
  intros Hev Hrun.
  split; [apply async_sensor_event_received_attributes|].
  rewrite async_sensor_event_received_eq, Hev, Hrun.
  destruct (classified_names_shape (topic msg) ev sensors Hrun)
    as (Hnodup & Htruthy).
  destruct (truthy sensors) eqn:Ht.
  - destruct (for_each_register_complete (drop_timestamp ev) (as_tuple sensors)
                (set_data (Some (registry h)) h) Hnodup)
      as (h' & -> & Hkeys & Hnew).
    cbn [snd]. split; [exact Hkeys|].
    rewrite <-drop_timestamp_delete. exact Hnew.
  - rewrite (proj1 Htruthy eq_refl). cbn [snd]. split.
    + intros key. rewrite fmap_nil, elem_of_nil. tauto.
    + by intros s ?%elem_of_nil.
Qed.

End Order.

(** X18. Discoveries of different sensors commute: for two messages that
    decode and classify to sensors with no name in common, the cache after
    the platform callback got both does not depend on which came first. *)
Theorem independent_discoveries_commute `{Const} (msg1 msg2 : Message)
    (ev1 ev2 : gmap string json) (sensors1 sensors2 : Discovery)
    (h : HomeAssistant) :
  payload msg1 = Some ev1 →
  payload msg2 = Some ev2 →
  discover_sensors (topic msg1) ev1 = Return sensors1 →
  discover_sensors (topic msg2) ev2 = Return sensors2 →
  (∀ key, key ∈ name <$> as_tuple sensors1 →
          key ∉ name <$> as_tuple sensors2) →
  registry (async_sensor_event_received msg2
              (async_sensor_event_received msg1 h).2).2
    = registry (async_sensor_event_received msg1
                  (async_sensor_event_received msg2 h).2).2.
Proof.
  intros Hev1 Hev2 Hrun1 Hrun2 Hdisjoint.
  set (h1 := (async_sensor_event_received msg1 h).2).
  set (h2 := (async_sensor_event_received msg2 h).2).
  destruct (platform_callback_cache msg1 ev1 sensors1 h Hev1 Hrun1)
    as (Hold1 & Hkeys1 & Hnew1).
  destruct (platform_callback_cache msg2 ev2 sensors2 h Hev2 Hrun2)
    as (Hold2 & Hkeys2 & Hnew2).
  destruct (platform_callback_cache msg2 ev2 sensors2 h1 Hev2 Hrun2)
    as (Hold12 & Hkeys12 & Hnew12).
  destruct (platform_callback_cache msg1 ev1 sensors1 h2 Hev1 Hrun1)
    as (Hold21 & Hkeys21 & Hnew21).
  fold h1 in Hold1, Hkeys1, Hnew1. fold h2 in Hold2, Hkeys2, Hnew2.
  apply map_eq. intros key.
  destruct (registry h !! key) as [s|] eqn:Hkey.
  { by rewrite (Hold12 key s (Hold1 key s Hkey)),
               (Hold21 key s (Hold2 key s Hkey)). }
  destruct (decide (key ∈ name <$> as_tuple sensors1)) as [Hin1|Hout1].
  - pose proof (Hdisjoint key Hin1) as Hout2.
    apply list_elem_of_fmap in Hin1 as (s & -> & Hs).
    rewrite (Hold12 _ _ (Hnew1 s Hs Hkey)).
    rewrite Hnew21; [done|done|].
    apply eq_None_not_Some. rewrite Hkeys2, Hkey.
    intros [[? [=]]|?]; done.
  - destruct (decide (key ∈ name <$> as_tuple sensors2)) as [Hin2|Hout2].
    + apply list_elem_of_fmap in Hin2 as (s & -> & Hs).
      rewrite (Hold21 _ _ (Hnew2 s Hs Hkey)).
      rewrite Hnew12; [done|done|].
      apply eq_None_not_Some. rewrite Hkeys1, Hkey.
      intros [[? [=]]|?]; done.
    + assert (registry h1 !! key = None) as Hnone1.
      { apply eq_None_not_Some. rewrite Hkeys1, Hkey.
        intros [[? [=]]|?]; done. }
      assert (registry h2 !! key = None) as Hnone2.
      { apply eq_None_not_Some. rewrite Hkeys2, Hkey.
        intros [[? [=]]|?]; done. }
      transitivity (@None ArwnSensor); [|symmetry].
      * apply eq_None_not_Some. rewrite Hkeys12, Hnone1.
        intros [[? [=]]|?]; done.
      * apply eq_None_not_Some. rewrite Hkeys21, Hnone2.
        intros [[? [=]]|?]; done.
Qed.

Lemma independent_discoveries_commute_witness :
  registry (@async_sensor_event_received labels wind_message
              (@async_sensor_event_received labels backyard_message fresh_hass).2).2
    = registry (@async_sensor_event_received labels backyard_message
                  (@async_sensor_event_received labels wind_message fresh_hass).2).2.
Proof.
  apply (@independent_discoveries_commute labels backyard_message wind_message
           _ _ _ _ fresh_hass eq_refl eq_refl eq_refl eq_refl).
  intros key Hin1 Hin2. cbn in Hin1, Hin2.
  apply list_elem_of_In in Hin1, Hin2. cbn in Hin1, Hin2.
  destruct Hin1 as [<-|[]]. intuition discriminate.
Defined.
